(** * AI Habit Coach: a shallow embedding of the Python sources

    The development follows the repository file by file:

    - [Exc]        Python's exceptions and the outcome of an evaluation;
    - [Arith]      the arithmetic of Python's [float], as an interface with
                   two instances: exact rationals and IEEE binary64;
    - [Py]         the dynamically typed values the modules pass around
                   (dictionaries with string keys, lists, strings, numbers);
    - [Fusion]     source_code/fusion.py;
    - [TextAnalysis]  source_code/text_analysis.py;
    - [Feedback]   source_code/feedback_generator.py;
    - [Storage]    source_code/storage.py;
    - [App]        the submission path of app_user_interface/streamlit_app.py;
    - [Scenario], [Spec]  the inputs of the examples, and the tables and
                   predicates of the specification;
    - the remaining modules hold the lemmas and the theorems C1 to C10.

    Definitions carry the names of the Python functions and of their local
    variables.  Theorems come after the definitions. *)

From Stdlib Require Import QArith Qminmax Qabs Lqa ZArith Lia.
From Stdlib Require Import PrimFloat Uint63 SpecFloat FloatOps.
From Stdlib Require Import Ascii String DecimalString.
From stdpp Require Import base option list gmap strings sorting.

Set Warnings "-register-all,-inexact-float".

(* ===================================================================== *)
(** * Exceptions *)
(* ===================================================================== *)

Module Exc.

(** The exceptions the modelled code can meet; all of them derive from
    Python's [Exception]. *)
Inductive exn : Type :=
| TypeError
| ValueError
| OverflowError
| IndexError
| KeyError
| OperationalError.

(** The outcome of evaluating an expression: a value, or a raised
    exception. *)
Inductive result (A : Type) : Type :=
| Ok (a : A)
| Raise (e : exn).
Arguments Ok {A} a.
Arguments Raise {A} e.

#[export] Instance result_ret : MRet result := fun A a => Ok a.
#[export] Instance result_bind : MBind result := fun A B f m =>
  match m with
  | Ok a => f a
  | Raise e => Raise e
  end.
#[export] Instance result_fmap : FMap result := fun A B f m =>
  match m with
  | Ok a => Ok (f a)
  | Raise e => Raise e
  end.

Definition is_ok {A} (r : result A) : bool :=
  match r with
  | Ok _ => true
  | Raise _ => false
  end.

End Exc.
Export Exc.

(* ===================================================================== *)
(** * Arithmetic *)
(* ===================================================================== *)

Module Arith.

(** Python evaluates the formulas of this repository on [float], that is on
    IEEE binary64 with round-to-nearest-even.  The code is embedded once,
    over the operations it uses, and run on two carriers: [Q], where every
    operation is exact (the arithmetic the specification reasons in), and
    Rocq's primitive [float], which is binary64 itself. *)
Class PyFloat (F : Type) : Type := {
  (** a decimal literal of the source text, such as [0.8] *)
  lit : Q -> F;
  (** the conversion of a list length in mixed [int]/[float] arithmetic *)
  of_len : nat -> F;
  fadd : F -> F -> F;
  fsub : F -> F -> F;
  fmul : F -> F -> F;
  (** [x < y] and [x == y] *)
  fltb : F -> F -> bool;
  feqb : F -> F -> bool;
  (** [int(x)]: truncation towards zero; Python raises on infinities and
      on NaN *)
  to_int : F -> result Z;
}.

(** [min(a, b)] of two floats: [b] when [b < a], else [a]. *)
Definition fmin {F} `{PyFloat F} (a b : F) : F :=
  if fltb b a then b else a.

Declare Scope py_scope.
Delimit Scope py_scope with py.
Infix "+" := fadd : py_scope.
Infix "-" := fsub : py_scope.
Infix "*" := fmul : py_scope.
Infix "<?" := fltb : py_scope.

(** Exact arithmetic. *)
Definition Qltb (x y : Q) : bool := negb (Qle_bool y x).

#[export] Instance exact : PyFloat Q := {|
  lit q := q;
  of_len n := inject_Z (Z.of_nat n);
  fadd := Qplus;
  fsub := Qminus;
  fmul := Qmult;
  fltb := Qltb;
  feqb := Qeq_bool;
  to_int x := Ok (Z.quot (Qnum x) (Zpos (Qden x)));
|}.

(** Binary64.  An integer below 2^63 in magnitude converts with one
    rounding, and IEEE division is correctly rounded, so a literal whose
    numerator and denominator are below 2^53 is read as the double nearest
    to it, as Python's parser does. *)
Definition float_of_Z (z : Z) : float :=
  if (z <? 0)%Z then PrimFloat.opp (PrimFloat.of_uint63 (Uint63.of_Z (- z)))
  else PrimFloat.of_uint63 (Uint63.of_Z z).

Definition float_to_int (x : float) : result Z :=
  match Prim2SF x with
  | S754_zero _ => Ok 0%Z
  | S754_finite s m e =>
      let a := if (0 <=? e)%Z then (Zpos m * 2 ^ e)%Z
               else (Zpos m / 2 ^ (- e))%Z in
      Ok (if s then (- a)%Z else a)
  | S754_infinity _ => Raise OverflowError
  | S754_nan => Raise ValueError
  end.

#[export] Instance binary64 : PyFloat float := {|
  lit q := PrimFloat.div (float_of_Z (Qnum q)) (float_of_Z (Zpos (Qden q)));
  of_len n := float_of_Z (Z.of_nat n);
  fadd := PrimFloat.add;
  fsub := PrimFloat.sub;
  fmul := PrimFloat.mul;
  fltb := PrimFloat.ltb;
  feqb := PrimFloat.eqb;
  to_int := float_to_int;
|}.

(** The one comparison of literals the proofs about [fuse] rely on: the
    confidence [0.0] of an absent face is below the threshold [0.1].  It
    holds on both carriers. *)
Class LitFacts (F : Type) `{PyFloat F} : Prop := {
  zero_lt_tenth : fltb (lit 0.0) (lit 0.1) = true;
}.

#[export] Instance exact_facts : LitFacts Q.
Proof. split. reflexivity. Qed.

#[export] Instance binary64_facts : LitFacts float.
Proof. split. vm_compute. reflexivity. Qed.

End Arith.
Export Arith.

(* ===================================================================== *)
(** * Python values *)
(* ===================================================================== *)

Module Py.

(** Values: [None], numbers, strings, lists and dictionaries keyed by
    strings.  Every number is carried as a float, the only numeric type the
    formulas compute with. *)
Inductive value (F : Type) : Type :=
| VNone
| VNum (x : F)
| VStr (s : string)
| VList (l : list (value F))
| VDict (d : gmap string (value F)).
Arguments VNone {F}.
Arguments VNum {F} x.
Arguments VStr {F} s.
Arguments VList {F} l.
Arguments VDict {F} d.

Abbreviation pydict F := (gmap string (value F)).

Section Values.
Context {F : Type} `{PyFloat F}.

(** [d.get(k, dflt)] *)
Definition dict_get (d : pydict F) (k : string) (dflt : value F) : value F :=
  default dflt (d !! k).

(** The operand of a float operation: anything but a number raises. *)
Definition as_float (v : value F) : result F :=
  match v with
  | VNum x => Ok x
  | _ => Raise TypeError
  end.

(** [v == s] for a string literal [s] *)
Definition eq_str (v : value F) (s : string) : bool :=
  match v with
  | VStr s' => bool_decide (s' = s)
  | _ => false
  end.

(** Truth value of an object: [None], zero and the empty containers are
    false. *)
Definition truthy (v : value F) : bool :=
  match v with
  | VNone => false
  | VNum x => negb (feqb x (lit 0))
  | VStr s => negb (Nat.eqb (String.length s) 0)
  | VList l => negb (Nat.eqb (length l) 0)
  | VDict d => negb (Nat.eqb (size d) 0)
  end.

(** Truth value of an optional dictionary: [None] and [{}] are false. *)
Definition truthy_dict (o : option (pydict F)) : bool :=
  match o with
  | None => false
  | Some d => truthy (VDict d)
  end.

(** [v[0]] *)
Definition subscript0 (v : value F) : result (value F) :=
  match v with
  | VList (x :: _) => Ok x
  | VStr (String c _) => Ok (VStr (String c EmptyString))
  | VList [] | VStr EmptyString => Raise IndexError
  | VDict _ => Raise KeyError
  | VNone | VNum _ => Raise TypeError
  end.

(** [d[k]] *)
Definition dict_item (d : pydict F) (k : string) : result (value F) :=
  match d !! k with
  | Some v => Ok v
  | None => Raise KeyError
  end.

End Values.

End Py.
Export Py.

(* ===================================================================== *)
(** * source_code/fusion.py *)
(* ===================================================================== *)

Module Fusion.

Section Fusion.
Context {F : Type} `{PyFloat F}.
Local Open Scope py_scope.

(** Mapping from FER emotion names to approximate numeric scores. *)
Definition EMOTION_TO_SCORE : gmap string F :=
  list_to_map
    [ ("angry", lit 0.1);
      ("disgust", lit 0.1);
      ("fear", lit 0.15);
      ("sad", lit 0.2);
      ("sadness", lit 0.2);
      ("surprise", lit 0.6);
      ("happy", lit 0.9);
      ("neutral", lit 0.5);
      ("no_face_detected", lit 0.5) ].

(** [EMOTION_TO_SCORE.get(dominant_emotion, 0.5)]: lists and dictionaries
    are unhashable; [None] and numbers hash but are not keys of the table. *)
Definition emotion_base (dominant_emotion : value F) : result F :=
  match dominant_emotion with
  | VStr s => Ok (default (lit 0.5) (EMOTION_TO_SCORE !! s))
  | VNone | VNum _ => Ok (lit 0.5)
  | VList _ | VDict _ => Raise TypeError
  end.

Definition map_face_emotion_score (dominant_emotion confidence : value F)
  : result F :=
  base ← emotion_base dominant_emotion;
  c ← as_float confidence;
  Ok (base * c + lit 0.5 * (lit 1 - c)).

(** The local variables of [fuse] when it reaches its [return]. *)
Record locals : Type := {
  text_val : F;
  text_mot : F;
  text_comp : F;
  face_comp : F;
  face_conf : F;
  w_text : F;
  w_face : F;
  mood : F;
  category : string;
}.

(** The face branch of [fuse]: the pair [(face_comp, face_conf)]. *)
Definition face_part (face_analysis : option (pydict F)) : result (F * F) :=
  match face_analysis with
  | Some d =>
      if negb (truthy_dict face_analysis)
         || eq_str (dict_get d "dominant_emotion" VNone) "no_face_detected"
      then Ok (lit 0.5, lit 0.0)
      else
        let dominant := dict_get d "dominant_emotion" (VStr "neutral") in
        let conf := dict_get d "score" (VNum (lit 0.0)) in
        face_comp ← map_face_emotion_score dominant conf;
        face_conf ← as_float conf;
        Ok (face_comp, face_conf)
  | None => Ok (lit 0.5, lit 0.0)
  end.

(** The body of [fuse] up to the [return] statement. *)
Definition fuse_locals (text_analysis : pydict F)
    (face_analysis : option (pydict F)) (weights : F * F) : result locals :=
  text_val ← as_float (dict_get text_analysis "valence" (VNum (lit 0.5)));
  text_mot ← as_float (dict_get text_analysis "motivation_score" (VNum (lit 0.0)));
  let text_comp := lit 0.8 * text_val + lit 0.2 * text_mot in
  fc ← face_part face_analysis;
  let face_comp := fc.1 in
  let face_conf := fc.2 in
  let w := if face_conf <? lit 0.1 then (lit 0.9, lit 0.1) else weights in
  let w_text := w.1 in
  let w_face := w.2 in
  let mood := w_text * text_comp + w_face * face_comp in
  let category :=
    if mood <? lit 0.35 then "low"
    else if mood <? lit 0.7 then "medium"
    else "high" in
  Ok {| text_val := text_val; text_mot := text_mot; text_comp := text_comp;
        face_comp := face_comp; face_conf := face_conf;
        w_text := w_text; w_face := w_face;
        mood := mood; category := category |}.

(** The dictionary [fuse] returns. *)
Definition result_dict (l : locals) : pydict F :=
  list_to_map
    [ ("mood_score", VNum (mood l));
      ("category", VStr (category l));
      ("components",
        VDict (list_to_map
          [ ("text_comp", VNum (text_comp l));
            ("face_comp", VNum (face_comp l));
            ("text_valence", VNum (text_val l));
            ("motivation_score", VNum (text_mot l)) ])) ].

Definition fuse (text_analysis : pydict F)
    (face_analysis : option (pydict F)) (weights : F * F) : result (pydict F) :=
  result_dict <$> fuse_locals text_analysis face_analysis weights.

(** The default of the [weights] argument. *)
Definition default_weights : F * F := (lit 0.6, lit 0.4).

End Fusion.

Arguments locals F : clear implicits.

End Fusion.

(* ===================================================================== *)
(** * source_code/text_analysis.py *)
(* ===================================================================== *)

Module TextAnalysis.

(** ** Strings: [str.lower] and the search for [\bkw\b]

    A text is a [string] of 8-bit characters.  On ASCII text the functions
    below are Python's; a byte above 127 is left as it is by [lower] and is
    no word character. *)

Definition is_upper (c : ascii) : bool :=
  let n := nat_of_ascii c in (65 <=? n) && (n <=? 90).

Definition lower_char (c : ascii) : ascii :=
  if is_upper c then ascii_of_nat (nat_of_ascii c + 32) else c.

Fixpoint lower (s : string) : string :=
  match s with
  | EmptyString => EmptyString
  | String c s' => String (lower_char c) (lower s')
  end.

(** [\w]: a letter, a digit or the underscore. *)
Definition is_word (c : ascii) : bool :=
  let n := nat_of_ascii c in
  ((48 <=? n) && (n <=? 57)) || ((65 <=? n) && (n <=? 90))
  || ((97 <=? n) && (n <=? 122)) || (n =? 95).

Definition word_at (s : string) : bool :=
  match s with
  | String c _ => is_word c
  | EmptyString => false
  end.

(** [\b] between the character before the position ([prev] tells whether it
    is a word character; false at the start of the text) and the text that
    follows. *)
Definition boundary (prev : bool) (rest : string) : bool :=
  xorb prev (word_at rest).

(** [kw\b] matches at the head of [s]. *)
Fixpoint match_here (kw s : string) (prev : bool) : bool :=
  match kw with
  | EmptyString => boundary prev s
  | String k kw' =>
      match s with
      | String c s' => Ascii.eqb k c && match_here kw' s' (is_word c)
      | EmptyString => false
      end
  end.

(** [\bkw\b] matches somewhere in [s]. *)
Fixpoint search_from (kw s : string) (prev : bool) : bool :=
  (boundary prev s && match_here kw s prev)
  || match s with
     | String c s' => search_from kw s' (is_word c)
     | EmptyString => false
     end.

(** [re.search(rf"\b{kw}\b", text)] as a truth value, for a keyword made of
    letters. *)
Definition re_search_word (kw text : string) : bool :=
  search_from kw text false.

(** Simple heuristic keywords indicating motivation/intent to act. *)
Definition motivation_keywords : list string :=
  [ "goal"; "plan"; "exercise"; "workout"; "study";
    "read"; "practice"; "build"; "apply"; "learn"; "finish" ].

Section AnalyzeText.
Context {F : Type} `{PyFloat F}.
Local Open Scope py_scope.

(** The sentiment pipeline: the label and the score of its first result. *)
Variable pipe : string -> string * F.

Definition found (text : string) : list string :=
  let text_lower := lower text in
  filter (fun kw => Is_true (re_search_word kw text_lower)) motivation_keywords.

Definition is_positive (label : string) : bool :=
  bool_decide (label = "POSITIVE").

Definition motivation_score_of (label : string) (found : list string) : F :=
  fmin (lit 1.0)
       (lit 0.2 * of_len (length found)
        + (if is_positive label then lit 0.3 else lit 0.0)).

Definition valence_of (label : string) (score : F) : F :=
  if is_positive label then score else lit 1 - score.

Definition analyze_text (text : string) : pydict F :=
  let result := pipe (String.substring 0 512 text) in
  let label := result.1 in
  let score := result.2 in
  let found := found text in
  let motivation_score := motivation_score_of label found in
  let valence := valence_of label score in
  list_to_map
    [ ("label", VStr label);
      ("score", VNum score);
      ("valence", VNum valence);
      ("motivation_score", VNum motivation_score);
      ("keywords", VList (VStr <$> found)) ].

End AnalyzeText.

End TextAnalysis.

(* ===================================================================== *)
(** * source_code/feedback_generator.py *)
(* ===================================================================== *)

Module Feedback.

(** Templates for each mood category. *)
Definition TEMPLATES : gmap string (list string) :=
  list_to_map
    [ ("low",
        [ "I’m sorry you’re having a tough time. Small steps can help — try {micro_action}.";
          "That sounds rough. Consider taking a brief break and doing {micro_action} to reset a little." ]);
      ("medium",
        [ "You're doing okay. Keep building momentum with {micro_action}.";
          "Nice awareness — try {micro_action} today to stay consistent." ]);
      ("high",
        [ "Great energy! Keep it up — maybe {micro_action} as a small challenge.";
          "You seem in a good mood. Consider {micro_action} to stretch your progress a little." ]) ].

(** Small, evidence-informed micro-actions. *)
Definition MICRO_ACTIONS : list string :=
  [ "a 10-minute walk";
    "a short breathing exercise";
    "writing one thing you’re grateful for";
    "a focused 20-minute session on a small task";
    "listening to a favorite song" ].

(** [random.choice(seq)], given the number the generator draws for it: the
    element at that index, reduced modulo the length.  An empty sequence
    raises. *)
Definition choice {A} (seq : list A) (draw : nat) : result A :=
  match seq !! (draw mod length seq) with
  | Some x => Ok x
  | None => Raise IndexError
  end.

Definition pick_micro_action (draw : nat) : result string :=
  choice MICRO_ACTIONS draw.

(** [s.format(micro_action=rep)] for a template whose only replacement field
    is [{micro_action}]: every occurrence of the field is replaced; [skip]
    counts the characters of a field still to pass over. *)
Fixpoint substitute (pat rep s : string) (skip : nat) : string :=
  match s with
  | EmptyString => EmptyString
  | String c s' =>
      match skip with
      | S k => substitute pat rep s' k
      | O =>
          if String.prefix pat s
          then rep +:+ substitute pat rep s' (String.length pat - 1)
          else String c (substitute pat rep s' 0)
      end
  end.

Definition format_micro_action (template micro : string) : string :=
  substitute "{micro_action}" micro template 0.

(** [str(n)] for an integer *)
Definition str_of_int (n : Z) : string :=
  NilZero.string_of_int (Z.to_int n).

Section GenerateFeedback.
Context {F : Type} `{PyFloat F}.
Local Open Scope py_scope.

(** Builtins of Python taken as given: [str] on the objects that are not
    strings (numbers and containers), and [int] on a string. *)
Variable str_other : value F -> string.
Variable int_of_string : string -> result Z.

(** [str(v)], as an f-string formats a field *)
Definition py_str (v : value F) : string :=
  match v with
  | VStr s => s
  | _ => str_other v
  end.

(** [v * 100] *)
Definition times_100 (v : value F) : result (value F) :=
  match v with
  | VNum x => Ok (VNum (x * lit 100))
  | VStr s => Ok (VStr (String.concat "" (replicate 100 s)))
  | VList l => Ok (VList (concat (replicate 100 l)))
  | VNone | VDict _ => Raise TypeError
  end.

(** [int(v)] *)
Definition py_int (v : value F) : result Z :=
  match v with
  | VNum x => to_int x
  | VStr s => int_of_string s
  | VNone | VList _ | VDict _ => Raise TypeError
  end.

(** The numbers the [random] module hands out during one call of
    [generate_feedback]: one for each [random.choice] and the result of
    [random.random()]. *)
Record draws : Type := {
  template_draw : nat;
  micro_draw : nat;
  keyword_draw : F;
}.

(** [TEMPLATES.get(category, TEMPLATES["medium"])] *)
Definition templates_for (category : value F) : result (list string) :=
  let medium := default [] (TEMPLATES !! "medium") in
  match category with
  | VStr s => Ok (default medium (TEMPLATES !! s))
  | VNone | VNum _ => Ok medium
  | VList _ | VDict _ => Raise TypeError
  end.

Definition generate_feedback (fusion_result text_analysis : pydict F)
    (face_analysis : option (pydict F)) (name : option string)
    (rnd : draws) : result (pydict F) :=
  let category := dict_get fusion_result "category" (VStr "medium") in
  templates ← templates_for category;
  template ← choice templates (template_draw rnd);
  micro ← pick_micro_action (micro_draw rnd);
  let keywords := dict_get text_analysis "keywords" (VList []) in
  micro ← (if truthy keywords && (keyword_draw rnd <? lit 0.4)
           then k0 ← subscript0 keywords;
                Ok (micro +:+ " related to " +:+ py_str k0)
           else Ok micro);
  let feedback_text := format_micro_action template micro in
  mood_score ← dict_item fusion_result "mood_score";
  percent ← times_100 mood_score ≫= py_int;
  let rationale :=
    "(" +:+ str_of_int percent +:+ "% mood score based on your words" in
  let rationale :=
    match face_analysis with
    | Some d =>
        if truthy_dict face_analysis
           && negb (eq_str (dict_get d "dominant_emotion" VNone) "no_face_detected")
        then rationale +:+ " and detected face emotion '"
             +:+ py_str (dict_get d "dominant_emotion" VNone) +:+ "'"
        else rationale
    | None => rationale
    end in
  let rationale := rationale +:+ ")" in
  Ok (list_to_map
        [ ("feedback", VStr feedback_text);
          ("rationale", VStr rationale) ]).

End GenerateFeedback.

Arguments draws F : clear implicits.

End Feedback.

(* ===================================================================== *)
(** * source_code/storage.py *)
(* ===================================================================== *)

Module Storage.

Section Storage.
Context {F : Type} `{PyFloat F}.

(** A row of the table [entries]; [id] is [None] until the row is
    inserted, [timestamp] counts microseconds. *)
Record Entry : Type := {
  id : option Z;
  timestamp : Z;
  text : string;
  text_emotion : string;
  face_emotion : string;
  mood_score : F;
  feedback : value F;
}.

(** What [save_entry] prints. *)
Inductive event : Type :=
| Saved
| SaveError (e : exn).

(** The database file, the objects added to the open session and not yet
    committed, and the standard output. *)
Record db : Type := {
  table : list Entry;
  pending : list Entry;
  stdout : list event;
}.

(** Statements: they change the state and return or raise; the state
    changes made before an exception stay. *)
Definition io (A : Type) : Type := db -> result A * db.

Definition io_ret {A} (a : A) : io A := fun s => (Ok a, s).

Definition io_bind {A B} (m : io A) (f : A -> io B) : io B := fun s =>
  match m s with
  | (Ok a, s') => f a s'
  | (Raise e, s') => (Raise e, s')
  end.

Definition lift {A} (r : result A) : io A := fun s => (r, s).

(** [try: body  except Exception as e: handler e] *)
Definition try_except {A} (body : io A) (handler : exn -> io A) : io A :=
  fun s =>
    match body s with
    | (Ok a, s') => (Ok a, s')
    | (Raise e, s') => handler e s'
    end.

(** [try: body  finally: cleanup] *)
Definition try_finally {A} (body : io A) (cleanup : io unit) : io A :=
  fun s =>
    let (r, s') := body s in
    match cleanup s' with
    | (Ok _, s'') => (r, s'')
    | (Raise e, s'') => (Raise e, s'')
    end.

#[export] Instance io_mret : MRet io := @io_ret.
#[export] Instance io_mbind : MBind io := fun A B f m => io_bind m f.

(** Builtins and library functions taken as given: [json.dumps] and
    [float] on a string. *)
Variable json_dumps : value F -> result string.
Variable float_of_string : string -> result F.

(** [float(v)] *)
Definition py_float (v : value F) : result F :=
  match v with
  | VNum x => Ok x
  | VStr s => float_of_string s
  | VNone | VList _ | VDict _ => Raise TypeError
  end.

(** An optional dictionary as an object. *)
Definition of_option_dict (o : option (pydict F)) : value F :=
  match o with
  | Some d => VDict d
  | None => VNone
  end.

(** What the surroundings do during one call of [save_entry]: the time
    [datetime.now()] reads, and the exception the database raises at the
    commit, if it raises one. *)
Record call_env : Type := {
  now : Z;
  commit_fault : option exn;
}.

(** ** The session *)

(** [Session()] *)
Definition Session : io unit := fun s : db =>
  (Ok tt, {| table := table s; pending := []; stdout := stdout s |}).

(** [session.add(entry)] *)
Definition session_add (entry : Entry) : io unit := fun s =>
  (Ok tt, {| table := table s; pending := pending s ++ [entry];
             stdout := stdout s |}).

(** The identity SQLite gives a new row: one more than the largest in the
    table. *)
Definition max_id (rows : list Entry) : Z :=
  foldr (fun e m => Z.max (default 0%Z (id e)) m) 0%Z rows.

(** The row as the table holds it once it has its identity. *)
Definition with_id (i : Z) (e : Entry) : Entry :=
  {| id := Some i;
     timestamp := timestamp e;
     text := text e;
     text_emotion := text_emotion e;
     face_emotion := face_emotion e;
     mood_score := mood_score e;
     feedback := feedback e |}.

Fixpoint insert_rows (rows new : list Entry) : list Entry :=
  match new with
  | [] => rows
  | e :: new' => insert_rows (rows ++ [with_id (max_id rows + 1) e]) new'
  end.

(** [session.commit()]: the pending rows are inserted, unless the database
    raises. *)
Definition session_commit (fault : option exn) : io unit := fun s =>
  match fault with
  | Some e => (Raise e, s)
  | None =>
      (Ok tt, {| table := insert_rows (table s) (pending s); pending := [];
                 stdout := stdout s |})
  end.

(** [session.rollback()] and [session.close()] *)
Definition session_rollback : io unit := fun s =>
  (Ok tt, {| table := table s; pending := []; stdout := stdout s |}).

Definition session_close : io unit := fun s =>
  (Ok tt, {| table := table s; pending := []; stdout := stdout s |}).

Definition print (ev : event) : io unit := fun s =>
  (Ok tt, {| table := table s; pending := pending s;
             stdout := stdout s ++ [ev] |}).

(** ** [save_entry] *)

(** The expression [Entry(timestamp=..., ..., feedback=...)]; its arguments
    are evaluated in order. *)
Definition new_entry (env : call_env) (text : string)
    (feedback_obj fusion_result text_result : pydict F)
    (face_result : option (pydict F)) : result Entry :=
  let timestamp := now env in
  text_emotion ← json_dumps (VDict text_result);
  face_emotion ← json_dumps (of_option_dict face_result);
  mood_score ← py_float (dict_get fusion_result "mood_score" (VNum (lit 0.0)));
  let feedback := dict_get feedback_obj "message" (VStr "") in
  Ok {| id := None; timestamp := timestamp; text := text;
        text_emotion := text_emotion; face_emotion := face_emotion;
        mood_score := mood_score; feedback := feedback |}.

Definition save_entry (env : call_env) (text : string)
    (feedback_obj fusion_result text_result : pydict F)
    (face_result : option (pydict F)) : io unit :=
  Session ;;
  try_finally
    (try_except
       (entry ← lift (new_entry env text feedback_obj fusion_result
                                text_result face_result);
        session_add entry ;;
        session_commit (commit_fault env) ;;
        print Saved)
       (fun e =>
          print (SaveError e) ;;
          session_rollback))
    session_close.

(** The arguments of one call of [save_entry], with what the surroundings
    do during it. *)
Record call : Type := {
  call_env_of : call_env;
  call_text : string;
  call_feedback_obj : pydict F;
  call_fusion_result : pydict F;
  call_text_result : pydict F;
  call_face_result : option (pydict F);
}.

(** The row the call builds. *)
Definition call_entry (c : call) : result Entry :=
  new_entry (call_env_of c) (call_text c) (call_feedback_obj c)
            (call_fusion_result c) (call_text_result c) (call_face_result c).

Definition save_call (c : call) : io unit :=
  save_entry (call_env_of c) (call_text c) (call_feedback_obj c)
             (call_fusion_result c) (call_text_result c) (call_face_result c).

(** A sequence of calls, one after the other. *)
Fixpoint save_all (cs : list call) : io unit :=
  match cs with
  | [] => mret tt
  | c :: cs' => save_call c ;; save_all cs'
  end.

(** ** [load_entries] *)

(** [Entry.timestamp.desc()]: [a] may come before [b]. *)
Definition newer_first (a b : Entry) : Prop := (timestamp b <= timestamp a)%Z.

#[export] Instance newer_first_dec a b : Decision (newer_first a b).
Proof. unfold newer_first. apply _. Defined.

(** [session.query(Entry).order_by(Entry.timestamp.desc()).all()] *)
Definition query_all : io (list Entry) := fun s =>
  (Ok (merge_sort newer_first (table s)), s).

Definition load_entries : io (list Entry) :=
  Session ;;
  entries ← query_all;
  session_close ;;
  mret entries.

End Storage.

Arguments Entry F : clear implicits.
Arguments db F : clear implicits.
Arguments io F A : clear implicits.
Arguments call F : clear implicits.

End Storage.

(* ===================================================================== *)
(** * source_code/emotion_analysis.py *)
(* ===================================================================== *)

Module EmotionAnalysis.

(** An image as a numpy array: rows of pixels, a pixel being the list of
    its channels. *)
Abbreviation array := (list (list (list Z))).

(** [img[:, :, ::-1]]: the last axis reversed, so that RGB becomes BGR. *)
Definition reverse_channels (img : array) : array :=
  map (map (@rev Z)) img.

(** [max(seq, key=key)]: the first element whose key no later element
    exceeds; [gt a b] is [a > b] on keys.  An empty sequence raises. *)
Definition py_max {A K : Type} (gt : K -> K -> bool) (key : A -> K)
    (seq : list A) : result A :=
  match seq with
  | [] => Raise ValueError
  | x :: rest =>
      Ok (foldl (fun best y => if gt (key y) (key best) then y else best)
                x rest)
  end.

Section AnalyzeFace.
Context {F : Type} `{PyFloat F}.

(** One face found by the detector: its bounding box [x, y, w, h] and its
    emotions with their probabilities, in the order of the dictionary. *)
Record detection : Type := {
  box : Z * Z * Z * Z;
  emotions : list (string * F);
}.

(** [r["box"][2] * r["box"][3]] *)
Definition area (r : detection) : Z :=
  let '(_, _, w, h) := box r in (w * h)%Z.

(** The detections as the object stored under the key [raw]. *)
Definition box_value (r : detection) : value F :=
  let '(x, y, w, h) := box r in
  VList (map (fun z => VNum (lit (inject_Z z))) [x; y; w; h]).

Definition detection_value (r : detection) : value F :=
  VDict (list_to_map
    [ ("box", box_value r);
      ("emotions",
        VDict (list_to_map (map (fun kv => (kv.1, VNum kv.2)) (emotions r)))) ]).

Definition raw_value (results : list detection) : value F :=
  VList (map detection_value results).

(** [analyze_face] from the detector's results on. *)
Definition dominant_of (results : list detection) : result (pydict F) :=
  match results with
  | [] =>
      Ok (list_to_map
            [ ("dominant_emotion", VStr "no_face_detected");
              ("score", VNum (lit 0.0));
              ("raw", raw_value results) ])
  | _ :: _ =>
      best ← py_max Z.gtb area results;
      dominant ← py_max (fun a b => fltb b a) snd (emotions best);
      Ok (list_to_map
            [ ("dominant_emotion", VStr dominant.1);
              ("score", VNum dominant.2);
              ("raw", raw_value results) ])
  end.

(** What [analyze_face] accepts: a file-like object, a PIL image, or a
    path. *)
Variable file : Type.
Variable pil_image : Type.

Inductive image_source : Type :=
| FileLike (f : file)
| PilImage (img : pil_image)
| Path (p : string).

(** PIL and FER, taken as given: opening an image, the array of its RGB
    conversion, and the detector. *)
Variable open_file : file -> result pil_image.
Variable open_path : string -> result pil_image.
Variable rgb_array : pil_image -> array.
Variable detect_emotions : array -> result (list detection).

(** [np.array(img.convert('RGB'))[:, :, ::-1].copy()] *)
Definition pil_to_cv2 (img_pil : pil_image) : array :=
  reverse_channels (rgb_array img_pil).

Definition analyze_face (image_file : image_source) : result (pydict F) :=
  img ← match image_file with
        | FileLike f => open_file f
        | PilImage img => Ok img
        | Path p => open_path p
        end;
  let cv_img := pil_to_cv2 img in
  results ← detect_emotions cv_img;
  dominant_of results.

End AnalyzeFace.

Arguments detection F : clear implicits.
Arguments image_source file pil_image : clear implicits.

End EmotionAnalysis.

(* ===================================================================== *)
(** * app_user_interface/streamlit_app.py *)
(* ===================================================================== *)

Module App.

Import Fusion TextAnalysis Feedback Storage.

(** [c.isspace()] on ASCII *)
Definition is_space (c : ascii) : bool :=
  let n := nat_of_ascii c in
  ((9 <=? n) && (n <=? 13)) || ((28 <=? n) && (n <=? 32)).

(** [not text.strip()] *)
Fixpoint is_blank (s : string) : bool :=
  match s with
  | EmptyString => true
  | String c s' => is_space c && is_blank s'
  end.

Section Submit.
Context {F : Type} `{PyFloat F}.

Variable pipe : string -> string * F.
Variable str_other : value F -> string.
Variable int_of_string : string -> result Z.
Variable json_dumps : value F -> result string.
Variable float_of_string : string -> result F.

(** What one submission of the form yields: nothing for a blank text, else
    the fusion result and the feedback shown to the user. *)
Definition shown : Type := option (pydict F * pydict F).

(** The summary widgets.  One of their expressions can raise: the face line
    formats [face_result.get('score')*100] with [.1f]. *)
Definition render (face_result : option (pydict F)) : result unit :=
  match face_result with
  | Some d =>
      if truthy_dict face_result
         && negb (eq_str (dict_get d "dominant_emotion" VNone) "no_face_detected")
      then match dict_get d "score" VNone with
           | VNum _ => Ok tt
           | VStr _ => Raise ValueError
           | VNone | VList _ | VDict _ => Raise TypeError
           end
      else Ok tt
  | None => Ok tt
  end.

(** The statements run when the form is submitted, from the text analysis to
    [save_entry].  [face_result] is what the face step leaves: [None] without
    an upload, else the dictionary of [analyze_face], or the no-face
    dictionary when [analyze_face] raised. *)
Definition submit (env : call_env) (rnd : draws F) (name text : string)
    (face_result : option (pydict F)) : io F shown :=
  if is_blank text then mret None
  else
    let text_result := analyze_text pipe text in
    fusion_result ← lift (fuse text_result face_result default_weights);
    feedback_obj ← lift (generate_feedback str_other int_of_string
                           fusion_result text_result face_result
                           (if Nat.eqb (String.length name) 0 then None
                            else Some name)
                           rnd);
    lift (render face_result) ;;
    save_entry json_dumps float_of_string env text feedback_obj
               fusion_result text_result face_result ;;
    mret (Some (fusion_result, feedback_obj)).

End Submit.

Section Form.
Context {F : Type} `{PyFloat F}.
Import EmotionAnalysis.

Variable file : Type.
Variable pil_image : Type.
Variable open_file : file -> result pil_image.
Variable open_path : string -> result pil_image.
Variable rgb_array : pil_image -> array.
Variable detect_emotions : array -> result (list (detection F)).

(** The dictionary used when [analyze_face] raises. *)
Definition face_fallback : pydict F :=
  list_to_map
    [ ("dominant_emotion", VStr "no_face_detected");
      ("score", VNum (lit 0.0)) ].

(** The face step of the form: no upload leaves [None]; an exception of
    [analyze_face] is caught and replaced by the no-face dictionary. *)
Definition face_step (uploaded_file : option (image_source file pil_image))
  : option (pydict F) :=
  match uploaded_file with
  | None => None
  | Some image_file =>
      match analyze_face file pil_image open_file open_path rgb_array
                         detect_emotions image_file with
      | Ok face_result => Some face_result
      | Raise _ => Some face_fallback
      end
  end.

End Form.

End App.

(* ===================================================================== *)
(** * Inputs used in the examples *)
(* ===================================================================== *)

Module Scenario.

Import Fusion Feedback Storage.

Section Scenario.
Context {F : Type} `{PyFloat F}.
Local Open Scope py_scope.

(** A text signal with the two keys [fuse] reads. *)
Definition text_signal (valence motivation_score : Q) : pydict F :=
  list_to_map
    [ ("valence", VNum (lit valence));
      ("motivation_score", VNum (lit motivation_score)) ].

(** A face signal as [analyze_face] returns it, without the raw results. *)
Definition face_signal (dominant_emotion : string) (score : Q) : pydict F :=
  list_to_map
    [ ("dominant_emotion", VStr dominant_emotion);
      ("score", VNum (lit score)) ].

(** The worked examples of the specification. *)
Definition text_A : pydict F := text_signal 0.8 0.3.
Definition face_A : pydict F := face_signal "happy" 0.8.
Definition text_B : pydict F := text_signal 0.5 0.0.
Definition text_C : pydict F := text_signal 0.1 0.0.
Definition face_C : pydict F := face_signal "sad" 0.9.

(** The dictionary the app substitutes when [analyze_face] raises. *)
Definition no_face : pydict F := face_signal "no_face_detected" 0.0.


(** The most positive input: both text features and the confidence of a
    happy face at 1. *)
Definition text_max : pydict F := text_signal 1 1.
Definition face_max : pydict F := face_signal "happy" 1.

(** The local variables of [fuse] at its [return], from the values read,
    the face branch's results, the weights used and the category. *)
Definition locals_with (text_val text_mot face_comp face_conf w_text w_face : F)
    (category : string) : locals F :=
  let text_comp := lit 0.8 * text_val + lit 0.2 * text_mot in
  {| Fusion.text_val := text_val; Fusion.text_mot := text_mot;
     Fusion.text_comp := text_comp;
     Fusion.face_comp := face_comp; Fusion.face_conf := face_conf;
     Fusion.w_text := w_text; Fusion.w_face := w_face;
     Fusion.mood := w_text * text_comp + w_face * face_comp;
     Fusion.category := category |}.

(** [face_comp] of a detected face. *)
Definition blend (base confidence : Q) : F :=
  lit base * lit confidence + lit 0.5 * (lit 1 - lit confidence).

Definition locals_A : locals F :=
  locals_with (lit 0.8) (lit 0.3) (blend 0.9 0.8) (lit 0.8)
              (lit 0.6) (lit 0.4) "high".
Definition locals_B : locals F :=
  locals_with (lit 0.5) (lit 0.0) (lit 0.5) (lit 0.0)
              (lit 0.9) (lit 0.1) "medium".
Definition locals_C : locals F :=
  locals_with (lit 0.1) (lit 0.0) (blend 0.2 0.9) (lit 0.9)
              (lit 0.6) (lit 0.4) "low".




(** A text signal whose valence is a string: outside the documented
    types. *)
Definition text_ill_typed : pydict F :=
  list_to_map [ ("valence", VStr "high") ].

(** A database with no rows. *)
Definition db_empty : db F := {| table := []; pending := []; stdout := [] |}.

(** One submission of the form: the text, a sentiment pipeline that answers
    POSITIVE at 0.9, the draws of the random module, and the time of the
    clock.  The commit succeeds. *)
Definition sample_text : string := "I plan to exercise".
Definition sample_pipe (text : string) : string * F := ("POSITIVE", lit 0.9).
Definition sample_draws : draws F :=
  {| template_draw := 1; micro_draw := 0; keyword_draw := lit 0.7 |}.
Definition sample_env : call_env := {| now := 1700000000; commit_fault := None |}.

(** A second sequence of draws: another micro-action. *)
Definition other_draws : draws F :=
  {| template_draw := 1; micro_draw := 1; keyword_draw := lit 0.7 |}.

(** Stand-ins for the builtins the example does not depend on: no object
    other than a string is formatted, no string is converted to a number,
    and the serialised dictionaries are not looked at. *)
Definition sample_str (v : value F) : string := "<object>".
Definition sample_int (s : string) : result Z := Raise ValueError.
Definition sample_float (s : string) : result F := Raise ValueError.
Definition sample_json (v : value F) : result string := Ok "<json>".

End Scenario.

End Scenario.

(* ===================================================================== *)
(** * The tables and predicates of the specification *)
(* ===================================================================== *)

Module Spec.

Import Storage.

(** The emotion table as the specification lists it: happy 0.9, neutral
    0.5, surprise 0.6, sad and sadness 0.2, fear 0.15, angry and disgust
    0.1, and 0.5 for any other label. *)
Definition base_score (label : string) : Q :=
  if bool_decide (label = "happy") then 0.9
  else if bool_decide (label = "neutral") then 0.5
  else if bool_decide (label = "surprise") then 0.6
  else if bool_decide (label = "sad") || bool_decide (label = "sadness") then 0.2
  else if bool_decide (label = "fear") then 0.15
  else if bool_decide (label = "angry") || bool_decide (label = "disgust") then 0.1
  else 0.5.



Section Signals.
Context {F : Type}.

(** The face input is absent, in one of the three ways [fuse] treats as
    such: no dictionary, an empty one, or the sentinel label. *)
Definition face_absent (face_analysis : option (pydict F)) : Prop :=
  match face_analysis with
  | None => True
  | Some d =>
      size d = 0
      \/ d !! "dominant_emotion" = Some (VStr "no_face_detected")
  end.


(** A key is missing or holds a number. *)
Definition number_or_missing (d : pydict F) (k : string) : Prop :=
  match d !! k with
  | None | Some (VNum _) => True
  | Some _ => False
  end.

(** A key is missing or holds a string. *)
Definition string_or_missing (d : pydict F) (k : string) : Prop :=
  match d !! k with
  | None | Some (VStr _) => True
  | Some _ => False
  end.

(** The inputs of [fuse] have the types its docstring gives them; keys may
    be missing. *)
Definition well_typed (text_analysis : pydict F)
    (face_analysis : option (pydict F)) : Prop :=
  number_or_missing text_analysis "valence"
  /\ number_or_missing text_analysis "motivation_score"
  /\ match face_analysis with
     | None => True
     | Some d =>
         string_or_missing d "dominant_emotion"
         /\ number_or_missing d "score"
     end.

(** What [fuse] reads of its face argument: its truth value and the values
    under the two keys. *)
Definition face_view (face_analysis : option (pydict F))
  : bool * option (value F) * option (value F) :=
  match face_analysis with
  | None => (false, None, None)
  | Some d =>
      (negb (Nat.eqb (size d) 0), d !! "dominant_emotion", d !! "score")
  end.

(** A dictionary with the shape of a fusion result: a numeric mood score,
    one of the three category labels, and the four numeric components. *)
Definition well_formed (r : pydict F) : Prop :=
  exists (m : F) (c : string) (comps : pydict F) (tc fc v ms : F),
    r !! "mood_score" = Some (VNum m)
    /\ r !! "category" = Some (VStr c)
    /\ (c = "low" \/ c = "medium" \/ c = "high")
    /\ r !! "components" = Some (VDict comps)
    /\ comps !! "text_comp" = Some (VNum tc)
    /\ comps !! "face_comp" = Some (VNum fc)
    /\ comps !! "text_valence" = Some (VNum v)
    /\ comps !! "motivation_score" = Some (VNum ms).

(** A call returned a dictionary whose mood score satisfies [P] and whose
    category is [category]. *)
Definition returns_mood (r : result (pydict F)) (P : F -> Prop)
    (category : string) : Prop :=
  exists (d : pydict F) (m : F),
    r = Ok d
    /\ d !! "mood_score" = Some (VNum m)
    /\ P m
    /\ d !! "category" = Some (VStr category).

End Signals.

Section Persistence.
Context {F : Type} `{PyFloat F}.
Variable json_dumps : value F -> result string.
Variable float_of_string : string -> result F.

(** Nothing fails during the call: the row is built and the commit goes
    through. *)
Definition succeeds (c : call F) : Prop :=
  is_ok (call_entry json_dumps float_of_string c) = true
  /\ commit_fault (call_env_of c) = None.

(** [row] is the row the call built, with an identity. *)
Definition appended_by (c : call F) (row : Entry F) : Prop :=
  exists (e : Entry F) (i : Z),
    call_entry json_dumps float_of_string c = Ok e /\ row = with_id i e.

End Persistence.


(** ** Words in a text *)

(** Every character of [s] is a word character. *)
Fixpoint all_word (s : string) : bool :=
  match s with
  | EmptyString => true
  | String c s' => TextAnalysis.is_word c && all_word s'
  end.

(** Whether the character before the end of [pre] is a word character;
    [prev] answers for what stands before [pre]. *)
Fixpoint last_word (prev : bool) (pre : string) : bool :=
  match pre with
  | EmptyString => prev
  | String c pre' => last_word (TextAnalysis.is_word c) pre'
  end.

(** [kw] occurs in [text] as a whole word: no word character stands right
    before it or right after it. *)
Definition whole_word (kw text : string) : Prop :=
  exists pre post : string,
    text = pre +:+ kw +:+ post
    /\ last_word false pre = false
    /\ TextAnalysis.word_at post = false.

End Spec.

(* ===================================================================== *)
(** * Facts about the arithmetic *)
(* ===================================================================== *)

Module ArithFacts.

Lemma Qltb_lt (x y : Q) : Qltb x y = true <-> (x < y)%Q.
Proof.
  unfold Qltb. rewrite negb_true_iff.
  split; intros Hxy.
  - apply Qnot_le_lt. intros Hle. apply Qle_bool_iff in Hle. congruence.
  - destruct (Qle_bool y x) eqn:E; [|reflexivity].
    apply Qle_bool_iff in E. apply Qle_not_lt in E. contradiction.
Qed.

Lemma Qltb_ge (x y : Q) : Qltb x y = false <-> (y <= x)%Q.
Proof.
  unfold Qltb. rewrite negb_false_iff. apply Qle_bool_iff.
Qed.

End ArithFacts.
Export ArithFacts.

(* ===================================================================== *)
(** * Facts about fusion.py on every carrier *)
(* ===================================================================== *)

Module FusionFacts.

Import Fusion Spec Scenario.

Lemma bind_Ok {A B} (m : result A) (k : A -> result B) (b : B) :
  m ≫= k = Ok b -> exists a, m = Ok a /\ k a = Ok b.
Proof. destruct m as [a|e]; simpl; [eauto | discriminate]. Qed.

Section Generic.
Context {F : Type} `{PyFloat F}.
Local Open Scope py_scope.

(** The table of the code is the table of the specification. *)
Lemma emotion_table (label : string) :
  default (lit 0.5) (EMOTION_TO_SCORE !! label) = lit (base_score label).
Proof.
  unfold EMOTION_TO_SCORE, base_score. simpl list_to_map.
  repeat (rewrite lookup_insert; case_decide;
          [subst label; reflexivity |]).
  rewrite lookup_empty. simpl.
  repeat (rewrite bool_decide_eq_false_2 by congruence).
  reflexivity.
Qed.

Lemma face_part_absent (f : option (pydict F)) :
  face_absent f -> face_part f = Ok (lit 0.5, lit 0.0).
Proof.
  destruct f as [d|]; simpl; [|reflexivity].
  intros [Hsz | Hlab].
  - rewrite Hsz. reflexivity.
  - unfold dict_get. rewrite Hlab. simpl.
    rewrite orb_true_r. reflexivity.
Qed.


(** What the local variables of [fuse] hold at the [return]. *)
Lemma fuse_locals_inv (t : pydict F) (f : option (pydict F)) (w : F * F)
    (l : locals F) :
  fuse_locals t f w = Ok l ->
  exists fc,
    as_float (dict_get t "valence" (VNum (lit 0.5))) = Ok (text_val l)
    /\ as_float (dict_get t "motivation_score" (VNum (lit 0.0)))
       = Ok (text_mot l)
    /\ face_part f = Ok fc
    /\ text_comp l = lit 0.8 * text_val l + lit 0.2 * text_mot l
    /\ face_comp l = fc.1
    /\ face_conf l = fc.2
    /\ (w_text l, w_face l)
       = (if fc.2 <? lit 0.1 then (lit 0.9, lit 0.1) else w)
    /\ mood l = w_text l * text_comp l + w_face l * face_comp l
    /\ category l
       = (if mood l <? lit 0.35 then "low"
          else if mood l <? lit 0.7 then "medium" else "high").
Proof.
  unfold fuse_locals. intros Hl. destruct w as [wt wf].
  apply bind_Ok in Hl as (tv & Htv & Hl).
  apply bind_Ok in Hl as (tm & Htm & Hl).
  apply bind_Ok in Hl as (fc & Hfc & Hl).
  injection Hl as <-. simpl.
  exists fc. repeat split; try assumption.
  destruct (fc.2 <? lit 0.1); reflexivity.
Qed.

(** [fuse] returns the dictionary built from its local variables. *)
Lemma fuse_returns (t : pydict F) (f : option (pydict F)) (w : F * F)
    (l : locals F) :
  fuse_locals t f w = Ok l -> fuse t f w = Ok (result_dict l).
Proof. unfold fuse. intros ->. reflexivity. Qed.

Lemma fuse_returns_inv (t : pydict F) (f : option (pydict F)) (w : F * F)
    (r : pydict F) :
  fuse t f w = Ok r ->
  exists l, fuse_locals t f w = Ok l /\ r = result_dict l.
Proof.
  unfold fuse. destruct (fuse_locals t f w) as [l|e]; simpl; [|discriminate].
  intros [= <-]. eauto.
Qed.

(** The category is one of the three labels. *)
Lemma category_cases (l : locals F) (t : pydict F) (f : option (pydict F))
    (w : F * F) :
  fuse_locals t f w = Ok l ->
  category l = "low" \/ category l = "medium" \/ category l = "high".
Proof.
  intros Hl. apply fuse_locals_inv in Hl as (fc & _ & _ & _ & _ & _ & _ & _ & _ & ->).
  destruct (mood l <? lit 0.35); [auto|].
  destruct (mood l <? lit 0.7); auto.
Qed.

Lemma result_dict_well_formed (l : locals F) :
  (category l = "low" \/ category l = "medium" \/ category l = "high") ->
  well_formed (result_dict l).
Proof.
  intros Hc. red. unfold result_dict.
  eexists (mood l), (category l), _, (text_comp l), (face_comp l),
          (text_val l), (text_mot l).
  repeat split; try reflexivity. exact Hc.
Qed.

(** A key that is missing or numeric reads as a float. *)
Lemma as_float_number_or_missing (d : pydict F) (k : string) (dflt : F) :
  number_or_missing d k ->
  exists x, as_float (dict_get d k (VNum dflt)) = Ok x
            /\ (d !! k = None -> x = dflt)
            /\ (forall y, d !! k = Some (VNum y) -> x = y).
Proof.
  unfold number_or_missing, dict_get.
  destruct (d !! k) as [[]|]; simpl; try contradiction; intros _.
  - eexists. split; [reflexivity|]. split; [discriminate|]. congruence.
  - eexists. split; [reflexivity|]. split; [reflexivity|]. discriminate.
Qed.

(** The face branch returns on every well-typed face input. *)
Lemma face_part_total (f : option (pydict F)) :
  match f with
  | None => True
  | Some d => string_or_missing d "dominant_emotion"
              /\ number_or_missing d "score"
  end ->
  exists fc, face_part f = Ok fc
             /\ (forall d, f = Some d -> d !! "score" = None -> fc.2 = lit 0.0).
Proof.
  destruct f as [d|]; [|intros _; eexists; split; [reflexivity | discriminate]].
  intros [Hs Hn]. unfold face_part.
  destruct (negb (truthy_dict (Some d))
            || eq_str (dict_get d "dominant_emotion" VNone) "no_face_detected").
  { eexists. split; [reflexivity|]. reflexivity. }
  apply (as_float_number_or_missing _ _ (lit 0.0)) in Hn as (c & Hc & Hmiss & _).
  assert (Hb : exists b,
    emotion_base (dict_get d "dominant_emotion" (VStr "neutral")) = Ok b).
  { unfold string_or_missing in Hs. unfold dict_get.
    destruct (d !! "dominant_emotion") as [[]|]; simpl; try contradiction; eauto. }
  destruct Hb as [b Hb].
  unfold map_face_emotion_score. rewrite Hb, Hc. simpl.
  eexists. split; [reflexivity|]. simpl.
  intros d' [= <-]. exact Hmiss.
Qed.

(** [fuse] returns on every well-typed input. *)
Lemma fuse_locals_total (t : pydict F) (f : option (pydict F)) (w : F * F) :
  well_typed t f -> exists l, fuse_locals t f w = Ok l.
Proof.
  intros (Hv & Hm & Hf).
  apply (as_float_number_or_missing _ _ (lit 0.5)) in Hv as (v & Hv & _).
  apply (as_float_number_or_missing _ _ (lit 0.0)) in Hm as (m & Hm & _).
  apply face_part_total in Hf as (fc & Hfc & _).
  unfold fuse_locals. rewrite Hv, Hm, Hfc. simpl. eauto.
Qed.

(** The face branch looks at its argument through [face_view] only. *)
Lemma face_part_view (f f' : option (pydict F)) :
  face_view f = face_view f' -> face_part f = face_part f'.
Proof.
  assert (Hfalsy : forall d : pydict F, size d = 0 ->
            face_part (Some d) = Ok (lit 0.5, lit 0.0)).
  { intros d Hd. apply (face_part_absent (Some d)). left. exact Hd. }
  destruct f as [d|], f' as [d'|]; unfold face_view; try reflexivity.
  - intros [= Hsz Hlab Hsc]. unfold face_part, truthy_dict, truthy, dict_get.
    rewrite Hlab, Hsc.
    destruct (size d), (size d'); simpl in *; congruence.
  - intros [= Hsz _ _]. apply negb_false_iff, Nat.eqb_eq in Hsz.
    exact (Hfalsy d Hsz).
  - intros [= Hsz _ _]. symmetry in Hsz.
    apply negb_false_iff, Nat.eqb_eq in Hsz.
    symmetry. exact (Hfalsy d' Hsz).
Qed.

End Generic.

End FusionFacts.

(* ===================================================================== *)
(** * The claims about fusion.py that hold on every carrier *)
(* ===================================================================== *)

Module FusionClaims.

Import Fusion Spec Scenario FusionFacts.

Section Generic.
Context {F : Type} `{LitFacts F}.
Local Open Scope py_scope.



(** C8.  [fuse] is a function of what it reads of its arguments: two calls
    whose text signals agree on the keys [valence] and [motivation_score],
    whose face signals agree on their truth value and on the keys
    [dominant_emotion] and [score], and whose weights are equal, have the
    same outcome; so two calls with identical arguments return results
    equal in every field.  On arguments of the documented types the call
    returns a well-formed result. *)
Theorem fuse_pure_total (t t' : pydict F) (f f' : option (pydict F))
    (w w' : F * F) :
  t !! "valence" = t' !! "valence" ->
  t !! "motivation_score" = t' !! "motivation_score" ->
  face_view f = face_view f' ->
  w = w' ->
  fuse t f w = fuse t' f' w'
  /\ (well_typed t f ->
      exists r, fuse t f w = Ok r /\ fuse t' f' w' = Ok r /\ well_formed r).
Proof.
  intros Hv Hm Hf <-.
  assert (Heq : fuse t f w = fuse t' f' w).
  { unfold fuse, fuse_locals, dict_get.
    rewrite Hv, Hm, (face_part_view f f' Hf). reflexivity. }
  split; [exact Heq|].
  intros Hty. destruct (fuse_locals_total t f w Hty) as [l Hl].
  exists (result_dict l). rewrite <- Heq.
  split; [exact (fuse_returns _ _ _ _ Hl)|].
  split; [exact (fuse_returns _ _ _ _ Hl)|].
  apply result_dict_well_formed. exact (category_cases _ _ _ _ Hl).
Qed.


End Generic.



(** C8 on binary64: example A, once as it is and once with the raw
    detections added to the face dictionary. *)
Lemma fuse_pure_total_witness :
  fuse (F:=float) text_A (Some face_A) default_weights
  = fuse text_A (Some (<["raw" := VList []]> face_A)) default_weights
  /\ exists r, fuse (F:=float) text_A (Some face_A) default_weights = Ok r
               /\ well_formed r.
Proof.
  destruct (fuse_pure_total (F:=float) text_A text_A (Some face_A)
              (Some (<["raw" := VList []]> face_A))
              default_weights default_weights)
    as [Heq Htot]; try reflexivity.
  split; [exact Heq|].
  destruct Htot as (r & Hr & _ & Hwf).
  - repeat split.
  - exists r. auto.
Defined.


End FusionClaims.

(* ===================================================================== *)
(** * The claims about ranges and thresholds, in exact arithmetic *)
(* ===================================================================== *)

Module ExactClaims.

Import Fusion TextAnalysis Spec Scenario FusionFacts.

Local Open Scope Q_scope.

(** The operations of the exact carrier are those of [Q]. *)
Ltac exact_arith :=
  cbn [lit of_len fadd fsub fmul fltb feqb exact] in *.










(** The minimum with 1.0 as [analyze_text] takes it is the minimum of
    [Q]. *)
Lemma fmin_one (x : Q) : fmin (F:=Q) 1.0 x == Qmin 1 x.
Proof.
  unfold fmin. exact_arith.
  destruct (Qltb x 1.0) eqn:E.
  - apply Qltb_lt in E. rewrite Q.min_r; [reflexivity | lra].
  - apply Qltb_ge in E. rewrite Q.min_l; [reflexivity | lra].
Qed.



End ExactClaims.

(* ===================================================================== *)
(** * The worked examples of the specification, on both carriers *)
(* ===================================================================== *)

Module WorkedExamples.

Import Fusion Spec Scenario.

(** Each goal is a closed run of [fuse]. *)
Ltac run_fuse :=
  unfold returns_mood; do 2 eexists;
  split; [vm_compute; reflexivity|];
  split; [vm_compute; reflexivity|];
  split; vm_compute; reflexivity.

(** The carrier [binary64] reads the literals of the examples as Rocq's
    parser reads them, that is as the nearest double. *)
Lemma literals_nearest :
  lit (F:=float) 0.748 = 0.748%float
  /\ lit (F:=float) 0.41 = 0.41%float
  /\ lit (F:=float) 0.14 = 0.14%float.
Proof. repeat split; vm_compute; reflexivity. Qed.

(** C7 as stated fails on the arithmetic Python runs: in example A the
    mood score [fuse] returns is not the float 0.748 (the comparison [==]
    is false), and in example B it is not the float 0.41. *)
Lemma worked_examples_not_exact_on_binary64 :
  returns_mood (fuse (F:=float) text_A (Some face_A) default_weights)
               (fun m => feqb m (lit 0.748) = false) "high"
  /\ returns_mood (fuse (F:=float) text_B None default_weights)
                  (fun m => feqb m (lit 0.41) = false) "medium".
Proof. split; run_fuse. Qed.

(** C7, as amended.  In exact arithmetic [fuse] returns the mood scores of
    the three worked examples exactly, 0.748, 0.41 and 0.14, with the
    categories "high", "medium" and "low".  On binary64 it returns the same
    categories; the mood score of example C is the float 0.14, and those of
    examples A and B are the floats 0.7480000000000002 and
    0.41000000000000003, each within 1e-15 of the value of the
    specification. *)
Theorem fuse_worked_examples :
  (returns_mood (fuse (F:=Q) text_A (Some face_A) default_weights)
                (fun m => m == 0.748)%Q "high"
   /\ returns_mood (fuse (F:=Q) text_B None default_weights)
                   (fun m => m == 0.41)%Q "medium"
   /\ returns_mood (fuse (F:=Q) text_C (Some face_C) default_weights)
                   (fun m => m == 0.14)%Q "low")
  /\ (returns_mood (fuse (F:=float) text_A (Some face_A) default_weights)
                   (fun m => m = 0.7480000000000002%float
                             /\ PrimFloat.ltb (PrimFloat.abs (m - 0.748)) 1e-15
                                = true) "high"
      /\ returns_mood (fuse (F:=float) text_B None default_weights)
                      (fun m => m = 0.41000000000000003%float
                                /\ PrimFloat.ltb (PrimFloat.abs (m - 0.41)) 1e-15
                                   = true) "medium"
      /\ returns_mood (fuse (F:=float) text_C (Some face_C) default_weights)
                      (fun m => m = 0.14%float) "low").
Proof.
  split; [repeat split; run_fuse|].
  repeat split; unfold returns_mood; do 2 eexists;
    (split; [vm_compute; reflexivity|]);
    (split; [vm_compute; reflexivity|]);
    repeat split; vm_compute; reflexivity.
Qed.

(** The components of the examples in exact arithmetic, as the
    specification computes them. *)
Lemma worked_examples_components :
  fuse_locals (F:=Q) text_A (Some face_A) default_weights = Ok locals_A
  /\ (text_comp (locals_A (F:=Q)) == 0.70)%Q
  /\ (face_comp (locals_A (F:=Q)) == 0.82)%Q
  /\ fuse_locals (F:=Q) text_B None default_weights = Ok locals_B
  /\ (text_comp (locals_B (F:=Q)) == 0.4)%Q
  /\ (face_comp (locals_B (F:=Q)) == 0.5)%Q
  /\ fuse_locals (F:=Q) text_C (Some face_C) default_weights = Ok locals_C
  /\ (text_comp (locals_C (F:=Q)) == 0.08)%Q
  /\ (face_comp (locals_C (F:=Q)) == 0.23)%Q.
Proof. repeat split; vm_compute; reflexivity. Qed.

End WorkedExamples.

(* ===================================================================== *)
(** * Facts about feedback_generator.py *)
(* ===================================================================== *)

Module FeedbackFacts.

Import Feedback FusionFacts.

(** A template that starts with ordinary text keeps its first character. *)
Lemma format_nonempty (c : ascii) (s' micro : string) :
  c <> "{"%char -> format_micro_action (String c s') micro <> EmptyString.
Proof.
  intros Hc. unfold format_micro_action. cbn [substitute String.prefix].
  destruct (ascii_dec "{" c) as [E|_]; [congruence | discriminate].
Qed.

Lemma choice_elem {A} (seq : list A) (draw : nat) (x : A) :
  choice seq draw = Ok x -> x ∈ seq.
Proof.
  unfold choice. destruct (seq !! (draw mod length seq)) eqn:E; [|discriminate].
  intros [= <-]. eapply list_elem_of_lookup_2. exact E.
Qed.

Section Generic.
Context {F : Type} `{PyFloat F}.
Variable str_other : value F -> string.
Variable int_of_string : string -> result Z.

(** Every template of every category starts with ordinary text. *)
Lemma templates_for_text (category : value F) (ts : list string) :
  templates_for category = Ok ts ->
  Forall (fun t => exists c s', t = String c s' /\ c <> "{"%char) ts.
Proof.
  assert (Hgo : forall c s', c <> "{"%char ->
            exists c0 s0, String c s' = String c0 s0 /\ c0 <> "{"%char)
    by eauto.
  assert (Hmed : Forall (fun t => exists c s', t = String c s' /\ c <> "{"%char)
                   (default [] (TEMPLATES !! "medium"))).
  { vm_compute default. repeat constructor; apply Hgo; discriminate. }
  destruct category as [| |s| |]; simpl; try discriminate;
    try (intros [= <-]; exact Hmed).
  intros [= <-].
  destruct (TEMPLATES !! s) as [ts|] eqn:E; simpl; [|exact Hmed].
  unfold TEMPLATES in E. simpl list_to_map in E.
  repeat (rewrite lookup_insert in E; case_decide;
          [injection E as <-; repeat constructor; apply Hgo; discriminate |]).
  rewrite lookup_empty in E. discriminate.
Qed.

(** What [generate_feedback] returns has a non-empty text under the key
    [feedback], and no key [message]. *)
Lemma generate_feedback_keys (fusion_result text_analysis : pydict F)
    (face_analysis : option (pydict F)) (name : option string)
    (rnd : draws F) (fb : pydict F) :
  generate_feedback str_other int_of_string fusion_result text_analysis
                    face_analysis name rnd = Ok fb ->
  fb !! "message" = None
  /\ exists msg, fb !! "feedback" = Some (VStr msg) /\ msg <> EmptyString.
Proof.
  unfold generate_feedback. intros Hfb.
  apply bind_Ok in Hfb as (ts & Hts & Hfb).
  apply bind_Ok in Hfb as (template & Htemplate & Hfb).
  apply bind_Ok in Hfb as (micro & _ & Hfb).
  apply bind_Ok in Hfb as (micro' & _ & Hfb).
  apply bind_Ok in Hfb as (ms & _ & Hfb).
  apply bind_Ok in Hfb as (percent & _ & Hfb).
  injection Hfb as <-.
  split; [reflexivity|].
  eexists. split; [reflexivity|].
  apply templates_for_text in Hts. apply choice_elem in Htemplate.
  rewrite Forall_forall in Hts.
  destruct (Hts _ Htemplate) as (c & s' & -> & Hc).
  apply format_nonempty. exact Hc.
Qed.

End Generic.

End FeedbackFacts.

(* ===================================================================== *)
(** * The claims about storage.py *)
(* ===================================================================== *)

Module StorageClaims.

Import Fusion Feedback Storage App Scenario Spec FusionFacts FeedbackFacts.

Section Generic.
Context {F : Type} `{PyFloat F}.
Variable json_dumps : value F -> result string.
Variable float_of_string : string -> result F.

(** The effect of [save_entry], case by case. *)
Lemma save_entry_cases (env : call_env) (text : string)
    (feedback_obj fusion_result text_result : pydict F)
    (face_result : option (pydict F)) (s : db F) :
  save_entry json_dumps float_of_string env text feedback_obj fusion_result
             text_result face_result s
  = (Ok tt,
     match new_entry json_dumps float_of_string env text feedback_obj
                     fusion_result text_result face_result,
           commit_fault env with
     | Ok e, None =>
         {| table := table s ++ [with_id (max_id (table s) + 1) e];
            pending := [];
            stdout := stdout s ++ [Saved] |}
     | Ok _, Some x | Raise x, _ =>
         {| table := table s; pending := [];
            stdout := stdout s ++ [SaveError x] |}
     end).
Proof.
  unfold save_entry, mbind, io_mbind, io_bind, try_finally, try_except, lift.
  destruct (new_entry json_dumps float_of_string env text feedback_obj
                      fusion_result text_result face_result) as [e|x];
    [destruct (commit_fault env) as [x|]|]; reflexivity.
Qed.


(** The fields of the row [new_entry] builds. *)
Lemma new_entry_fields (env : call_env) (text : string)
    (feedback_obj fusion_result text_result : pydict F)
    (face_result : option (pydict F)) (e : Entry F) :
  new_entry json_dumps float_of_string env text feedback_obj fusion_result
            text_result face_result = Ok e ->
  id e = None
  /\ timestamp e = now env
  /\ Storage.text e = text
  /\ json_dumps (VDict text_result) = Ok (text_emotion e)
  /\ json_dumps (of_option_dict face_result) = Ok (face_emotion e)
  /\ py_float float_of_string
       (dict_get fusion_result "mood_score" (VNum (lit 0.0)))
     = Ok (mood_score e)
  /\ feedback e = dict_get feedback_obj "message" (VStr "").
Proof.
  unfold new_entry. intros He.
  apply bind_Ok in He as (te & Hte & He).
  apply bind_Ok in He as (fe & Hfe & He).
  apply bind_Ok in He as (ms & Hms & He).
  injection He as <-. simpl.
  repeat (split; [first [assumption | reflexivity]|]). reflexivity.
Qed.

(** The defect behind C2: whatever [generate_feedback] returns, the row
    built from it holds the empty string as feedback, while the message
    generated, under the key [feedback], is not empty. *)
Lemma generated_message_not_stored
    (str_other : value F -> string) (int_of_string : string -> result Z)
    (rnd : draws F) (name : option string) (env : call_env) (text : string)
    (feedback_obj fusion_result text_result : pydict F)
    (face_result : option (pydict F)) (e : Entry F) :
  generate_feedback str_other int_of_string fusion_result text_result
                    face_result name rnd = Ok feedback_obj ->
  new_entry json_dumps float_of_string env text feedback_obj fusion_result
            text_result face_result = Ok e ->
  feedback e = VStr EmptyString
  /\ exists msg, feedback_obj !! "feedback" = Some (VStr msg)
                 /\ msg <> EmptyString.
Proof.
  intros Hgen He.
  apply generate_feedback_keys in Hgen as (Hnone & Hmsg).
  apply new_entry_fields in He as (_ & _ & _ & _ & _ & _ & Hfb).
  split; [|exact Hmsg].
  rewrite Hfb. unfold dict_get. rewrite Hnone. reflexivity.
Qed.

(** ** The part of the round trip that holds *)

Lemma newer_first_total : Total (newer_first (F:=F)).
Proof. intros a b. unfold newer_first. lia. Qed.

(** A call during which nothing fails appends its row. *)
Lemma save_call_succeeds (c : call F) (s : db F) :
  succeeds json_dumps float_of_string c ->
  exists e,
    call_entry json_dumps float_of_string c = Ok e
    /\ save_call json_dumps float_of_string c s
       = (Ok tt,
          {| table := table s ++ [with_id (max_id (table s) + 1) e];
             pending := [];
             stdout := stdout s ++ [Saved] |}).
Proof.
  intros [Hok Hcommit]. unfold save_call. rewrite save_entry_cases.
  unfold call_entry in *.
  destruct (new_entry _ _ _ _ _ _ _ _) as [e|x]; [|discriminate].
  rewrite Hcommit. eauto.
Qed.

(** Calls during which nothing fails append one row each, in order. *)
Lemma save_all_appends (cs : list (call F)) (s : db F) :
  Forall (succeeds json_dumps float_of_string) cs ->
  exists (s' : db F) (rows : list (Entry F)),
    save_all json_dumps float_of_string cs s = (Ok tt, s')
    /\ Forall2 (appended_by json_dumps float_of_string) cs rows
    /\ table s' = table s ++ rows.
Proof.
  intros Hcs. revert s.
  induction Hcs as [|c cs Hc _ IH]; intros s.
  - exists s, []. simpl. rewrite app_nil_r.
    split; [reflexivity|]. split; [constructor | reflexivity].
  - destruct (save_call_succeeds c s Hc) as (e & He & Hrun).
    destruct (IH {| table := table s ++ [with_id (max_id (table s) + 1) e];
                    pending := [];
                    stdout := stdout s ++ [Saved] |})
      as (s' & rows & Hrest & Hrows & Htable).
    exists s', (with_id (max_id (table s) + 1) e :: rows).
    split.
    { simpl. unfold mbind, io_mbind, io_bind. rewrite Hrun. exact Hrest. }
    split.
    { constructor; [|exact Hrows]. exists e, (max_id (table s) + 1)%Z. auto. }
    rewrite Htable. simpl. rewrite <- app_assoc. reflexivity.
Qed.

(** [load_entries] lists the table, most recent first. *)
Lemma load_entries_lists (s : db F) :
  (load_entries s).1 = Ok (merge_sort newer_first (table s)).
Proof. reflexivity. Qed.

(** After [N] calls during which nothing fails, on an empty table,
    [load_entries] returns [N] rows in non-increasing order of timestamp,
    and they are the rows the calls built.  (The field [feedback] of each
    is what [new_entry] put there.) *)
Lemma round_trip (cs : list (call F)) :
  Forall (succeeds json_dumps float_of_string) cs ->
  exists (s' : db F) (rows listed : list (Entry F)),
    save_all json_dumps float_of_string cs db_empty = (Ok tt, s')
    /\ Forall2 (appended_by json_dumps float_of_string) cs rows
    /\ (load_entries s').1 = Ok listed
    /\ length listed = length cs
    /\ Sorted newer_first listed
    /\ listed ≡ₚ rows.
Proof.
  intros Hcs.
  destruct (save_all_appends cs db_empty Hcs) as (s' & rows & Hrun & Hrows & Ht).
  simpl in Ht.
  exists s', rows, (merge_sort newer_first (table s')).
  split; [exact Hrun|]. split; [exact Hrows|].
  split; [apply load_entries_lists|].
  pose proof (merge_sort_Permutation newer_first (table s')) as Hperm.
  split.
  { rewrite Hperm, Ht. symmetry. exact (Forall2_length _ _ _ Hrows). }
  split.
  { pose proof newer_first_total. apply (Sorted_merge_sort _). }
  rewrite Hperm, Ht. reflexivity.
Qed.

End Generic.

(** C2 at one submission, on binary64: the app shows the generated message
    and stores the empty string in its place; the other fields of the row
    are those of the submission. *)
Theorem stored_feedback_is_not_the_message :
  exists (fusion_result feedback_obj : pydict float) (s' : db float)
         (e : Entry float),
    submit sample_pipe sample_str sample_int sample_json sample_float
           sample_env sample_draws "" sample_text None db_empty
    = (Ok (Some (fusion_result, feedback_obj)), s')
    /\ feedback_obj !! "feedback"
       = Some (VStr "You seem in a good mood. Consider a 10-minute walk to stretch your progress a little.")
    /\ feedback_obj !! "message" = None
    /\ (load_entries s').1 = Ok [e]
    /\ Storage.text e = sample_text
    /\ timestamp e = now sample_env
    /\ feedback e = VStr "".
Proof.
  do 4 eexists.
  split; [vm_compute; reflexivity|].
  repeat split; vm_compute; reflexivity.
Qed.

End StorageClaims.

(* ===================================================================== *)
(** * The limits of the claims, on binary64 *)
(* ===================================================================== *)

Module Limits.

Import Fusion TextAnalysis Feedback Scenario Spec.

(** The mood score of 1.9 that refutes C1 as stated is also what binary64
    gives. *)
Lemma fuse_mood_above_one_binary64 :
  returns_mood (fuse (F:=float) text_max (Some face_max) (lit 1, lit 1))
               (fun m => m = 1.9%float) "high".
Proof.
  unfold returns_mood. do 2 eexists.
  repeat split; vm_compute; reflexivity.
Qed.

(** With the default weights the bounds of example A, B and C hold on
    binary64 too. *)
Lemma worked_examples_in_unit_interval_binary64 :
  returns_mood (fuse (F:=float) text_A (Some face_A) default_weights)
               (fun m => fltb (lit 0) m = true /\ fltb m (lit 1) = true)
               "high"
  /\ returns_mood (fuse (F:=float) text_B None default_weights)
                  (fun m => fltb (lit 0) m = true /\ fltb m (lit 1) = true)
                  "medium"
  /\ returns_mood (fuse (F:=float) text_C (Some face_C) default_weights)
                  (fun m => fltb (lit 0) m = true /\ fltb m (lit 1) = true)
                  "low".
Proof.
  repeat split; unfold returns_mood; do 2 eexists;
    repeat split; vm_compute; reflexivity.
Qed.

(** Totality stops at the documented types: a valence that is a string
    raises. *)
Lemma fuse_raises_on_string_valence :
  fuse (F:=float) text_ill_typed None default_weights = Raise TypeError.
Proof. vm_compute. reflexivity. Qed.

(** Unlike [fuse], [generate_feedback] depends on the draws of the random
    module: the same arguments give two messages. *)
Lemma generate_feedback_depends_on_draws :
  exists (fusion_result fb1 fb2 : pydict float),
    fuse (analyze_text sample_pipe sample_text) None default_weights
    = Ok fusion_result
    /\ generate_feedback sample_str sample_int fusion_result
         (analyze_text sample_pipe sample_text) None None sample_draws
       = Ok fb1
    /\ generate_feedback sample_str sample_int fusion_result
         (analyze_text sample_pipe sample_text) None None other_draws
       = Ok fb2
    /\ fb1 !! "feedback" <> fb2 !! "feedback".
Proof.
  do 3 eexists.
  split; [vm_compute; reflexivity|].
  split; [vm_compute; reflexivity|].
  split; [vm_compute; reflexivity|].
  vm_compute. discriminate.
Qed.

End Limits.

(* ===================================================================== *)
(** * Properties of text_analysis.py *)
(* ===================================================================== *)

Module TextProperties.

Import TextAnalysis Spec.

Lemma append_nil (s : string) : EmptyString +:+ s = s.
Proof. reflexivity. Qed.

Lemma append_cons (c : ascii) (s t : string) :
  String c s +:+ t = String c (s +:+ t).
Proof. reflexivity. Qed.

(** [kw\b] at the head of [s], whatever [kw] is. *)
Lemma match_here_spec (kw s : string) (prev : bool) :
  match_here kw s prev = true
  <-> exists post, s = kw +:+ post
                   /\ xorb (last_word prev kw) (word_at post) = true.
Proof.
  revert s prev. induction kw as [|k kw IH]; intros s prev.
  - cbn [match_here last_word]. unfold boundary. split.
    + intros Hb. exists s. rewrite append_nil. auto.
    + intros (post & Hs & Hb). rewrite append_nil in Hs. subst post. exact Hb.
  - cbn [match_here last_word]. destruct s as [|c s].
    + split; [discriminate|]. intros (post & Hs & _).
      rewrite append_cons in Hs. discriminate.
    + rewrite andb_true_iff, Ascii.eqb_eq, IH. split.
      * intros (-> & post & -> & Hb). exists post.
        rewrite append_cons. auto.
      * intros (post & Hs & Hb). rewrite append_cons in Hs.
        injection Hs as -> ->. split; [reflexivity|]. eauto.
Qed.

(** The search from any position on. *)
Lemma search_from_spec (kw s : string) (prev : bool) :
  search_from kw s prev = true
  <-> exists pre post,
        s = pre +:+ kw +:+ post
        /\ xorb (last_word prev pre) (word_at (kw +:+ post)) = true
        /\ xorb (last_word (last_word prev pre) kw) (word_at post) = true.
Proof.
  revert prev. induction s as [|c s IH]; intros prev.
  - cbn [search_from]. rewrite orb_false_r, andb_true_iff, match_here_spec.
    unfold boundary. split.
    + intros (Hb & post & Hs & Hp). exists EmptyString, post.
      rewrite append_nil. cbn [last_word]. rewrite <- Hs. auto.
    + intros (pre & post & Hs & Hb & Hp).
      destruct pre as [|c' pre]; [|rewrite append_cons in Hs; discriminate].
      rewrite append_nil in Hs. cbn [last_word] in Hb, Hp.
      split; [rewrite Hs; exact Hb|]. eauto.
  - cbn [search_from]. rewrite orb_true_iff, andb_true_iff, match_here_spec, IH.
    unfold boundary. split.
    + intros [(Hb & post & Hs & Hp) | (pre & post & Hs & Hb & Hp)].
      * exists EmptyString, post. rewrite append_nil. cbn [last_word].
        rewrite <- Hs. auto.
      * exists (String c pre), post. rewrite append_cons. cbn [last_word].
        rewrite Hs. auto.
    + intros (pre & post & Hs & Hb & Hp). destruct pre as [|c' pre].
      * left. rewrite append_nil in Hs. cbn [last_word] in Hb, Hp.
        split; [rewrite Hs; exact Hb|]. eauto.
      * right. rewrite append_cons in Hs. injection Hs as -> ->.
        cbn [last_word] in Hb, Hp. exists pre, post. auto.
Qed.

Lemma last_word_all_word (kw : string) (prev : bool) :
  kw <> EmptyString -> all_word kw = true -> last_word prev kw = true.
Proof.
  revert prev. induction kw as [|k kw IH]; intros prev Hne Hall;
    [congruence|].
  simpl in *. apply andb_true_iff in Hall as [Hk Hall]. rewrite Hk.
  destruct kw as [|k' kw]; [reflexivity|].
  apply IH; [discriminate | exact Hall].
Qed.

Lemma word_at_all_word (kw post : string) :
  kw <> EmptyString -> all_word kw = true -> word_at (kw +:+ post) = true.
Proof.
  destruct kw as [|k kw]; [congruence|]. rewrite append_cons.
  cbn [word_at all_word].
  intros _ Hall. apply andb_true_iff in Hall as [Hk _]. exact Hk.
Qed.

(** X1.  For a non-empty keyword made of word characters,
    [re.search(rf"\b{kw}\b", text)] succeeds exactly when the keyword
    occurs in the text as a whole word: somewhere in the text, with no
    letter, digit or underscore right before it or right after it. *)
Theorem re_search_word_whole_word (kw text : string) :
  kw <> EmptyString -> all_word kw = true ->
  re_search_word kw text = true <-> whole_word kw text.
Proof.
  intros Hne Hall. unfold re_search_word, whole_word.
  rewrite search_from_spec.
  split; intros (pre & post & Hs & H1 & H2); exists pre, post.
  - rewrite (word_at_all_word kw post Hne Hall) in H1.
    rewrite (last_word_all_word kw _ Hne Hall) in H2.
    split; [exact Hs|].
    split; [destruct (last_word false pre); [discriminate | reflexivity]|].
    destruct (word_at post); [discriminate | reflexivity].
  - rewrite (word_at_all_word kw post Hne Hall).
    rewrite (last_word_all_word kw _ Hne Hall).
    rewrite H1, H2. auto.
Qed.

(** X1 at the keyword "goal": found between a space and an exclamation
    mark. *)
Lemma re_search_word_whole_word_witness :
  all_word "goal" = true
  /\ whole_word "goal" "my goal!"
  /\ re_search_word "goal" "my goal!" = true.
Proof.
  assert (Hne : "goal" <> EmptyString) by discriminate.
  assert (Hall : all_word "goal" = true) by reflexivity.
  assert (Hw : whole_word "goal" "my goal!").
  { exists "my ", "!". repeat split. }
  split; [exact Hall|]. split; [exact Hw|].
  exact (proj2 (re_search_word_whole_word "goal" "my goal!" Hne Hall) Hw).
Defined.






Section Truncation.
Context {F : Type} `{PyFloat F}.


End Truncation.

Section Scores.
Local Open Scope Q_scope.

Lemma inject_length_le (f1 f2 : list string) :
  (length f1 <= length f2)%nat ->
  inject_Z (Z.of_nat (length f1)) <= inject_Z (Z.of_nat (length f2)).
Proof. intros Hle. rewrite <- Zle_Qle. lia. Qed.

(** The motivation score as a function of the number of keywords. *)
Lemma motivation_score_exact (label : string) (found : list string) :
  motivation_score_of (F:=Q) label found
  == Qmin 1 (0.2 * inject_Z (Z.of_nat (length found))
             + (if is_positive label then 0.3 else 0)).
Proof.
  unfold motivation_score_of. rewrite ExactClaims.fmin_one.
  cbn [lit of_len fadd fmul exact].
  destruct (is_positive label); apply Q.min_compat; try reflexivity; lra.
Qed.

(** X3.  The motivation score never decreases when more keywords are
    found; a POSITIVE label never gives less than another label; the score
    is 1 from five keywords on, and from four on for a POSITIVE label. *)
Theorem motivation_score_monotone (label : string) (f1 f2 : list string) :
  (length f1 <= length f2)%nat ->
  motivation_score_of (F:=Q) label f1 <= motivation_score_of label f2
  /\ motivation_score_of (F:=Q) label f1
     <= motivation_score_of "POSITIVE" f1
  /\ ((5 <= length f2)%nat -> motivation_score_of (F:=Q) label f2 == 1)
  /\ ((4 <= length f2)%nat ->
      motivation_score_of (F:=Q) "POSITIVE" f2 == 1).
Proof.
  intros Hle. pose proof (inject_length_le f1 f2 Hle) as Hn.
  assert (H0 : 0 <= inject_Z (Z.of_nat (length f1))).
  { change 0 with (inject_Z 0). rewrite <- Zle_Qle. lia. }
  rewrite !motivation_score_exact.
  change (is_positive "POSITIVE") with true.
  set (n1 := inject_Z (Z.of_nat (length f1))) in *.
  set (n2 := inject_Z (Z.of_nat (length f2))) in *.
  split; [|split; [|split]].
  - apply Q.min_le_compat_l. destruct (is_positive label); lra.
  - apply Q.min_le_compat_l. destruct (is_positive label); lra.
  - intros H5. assert (5 <= n2).
    { unfold n2. change 5 with (inject_Z 5). rewrite <- Zle_Qle. lia. }
    apply Q.min_l. destruct (is_positive label); lra.
  - intros H4. assert (4 <= n2).
    { unfold n2. change 4 with (inject_Z 4). rewrite <- Zle_Qle. lia. }
    apply Q.min_l. lra.
Qed.

(** X3 with one and with five keywords. *)
Lemma motivation_score_monotone_witness :
  (1 <= 5)%nat
  /\ motivation_score_of (F:=Q) "NEGATIVE" ["goal"]
     <= motivation_score_of "NEGATIVE" ["goal"; "plan"; "study"; "read"; "learn"]
  /\ motivation_score_of (F:=Q) "NEGATIVE"
       ["goal"; "plan"; "study"; "read"; "learn"] == 1.
Proof.
  assert (Hle : (length ["goal"] <= length ["goal"; "plan"; "study"; "read"; "learn"])%nat)
    by (simpl; lia).
  split; [lia|].
  destruct (motivation_score_monotone "NEGATIVE" ["goal"]
              ["goal"; "plan"; "study"; "read"; "learn"] Hle)
    as (Hmono & _ & Hfive & _).
  split; [exact Hmono|]. apply Hfive. simpl. lia.
Defined.

End Scores.


End TextProperties.

(* ===================================================================== *)
(** * Properties of fusion.py, in exact arithmetic *)
(* ===================================================================== *)

Module FusionProperties.

Import Fusion Spec Scenario FusionFacts.

Local Open Scope Q_scope.

Ltac exact_arith :=
  cbn [lit of_len fadd fsub fmul fltb feqb exact] in *.


(** X5.  A more positive text never lowers the result: for the same face
    signal and caller weights with a non-negative text weight, raising the
    valence and the motivation score read from the text signal raises the
    mood score or leaves it unchanged, and the category never moves down. *)
Theorem fuse_monotone_in_text (t t' : pydict Q) (f : option (pydict Q))
    (w : Q * Q) (l l' : locals Q) :
  fuse_locals t f w = Ok l ->
  fuse_locals t' f w = Ok l' ->
  0 <= w.1 ->
  text_val l <= text_val l' ->
  text_mot l <= text_mot l' ->
  mood l <= mood l'
  /\ (category l = "high" -> category l' = "high")
  /\ (category l' = "low" -> category l = "low").
Proof.
  intros Hl Hl' Hw Hv Hm.
  apply fuse_locals_inv in Hl
    as (fc & _ & _ & Hfc & Htc & Hcomp & _ & Hweights & Hmood & Hcat).
  apply fuse_locals_inv in Hl'
    as (fc' & _ & _ & Hfc' & Htc' & Hcomp' & _ & Hweights' & Hmood' & Hcat').
  rewrite Hfc in Hfc'. injection Hfc' as <-.
  rewrite <- Hweights in Hweights'. injection Hweights' as Hwt Hwf.
  exact_arith.
  assert (Hwt0 : 0 <= w_text l).
  { destruct w as [wt wf]. simpl in Hw.
    destruct (Qltb fc.2 0.1); injection Hweights as Ha _; rewrite Ha; lra. }
  assert (Hmono : mood l <= mood l').
  { rewrite Hmood, Hmood'. rewrite Hwt, Hwf.
    rewrite Htc, Htc', Hcomp, Hcomp'. nra. }
  split; [exact Hmono|].
  destruct (Qltb (mood l) 0.35) eqn:E1; destruct (Qltb (mood l) 0.7) eqn:E2;
    destruct (Qltb (mood l') 0.35) eqn:E1'; destruct (Qltb (mood l') 0.7) eqn:E2';
    rewrite Hcat, Hcat'; split; intros Hc; try reflexivity; try discriminate;
    repeat match goal with
           | H : Qltb _ _ = true |- _ => apply Qltb_lt in H
           | H : Qltb _ _ = false |- _ => apply Qltb_ge in H
           end; lra.
Qed.

(** X5 on examples C and A without a face: valence 0.1 against 0.8. *)
Lemma fuse_monotone_in_text_witness :
  fuse_locals (F:=Q) text_C None default_weights
  = Ok (locals_with 0.1 0.0 0.5 0.0 0.9 0.1 "low")
  /\ fuse_locals (F:=Q) text_A None default_weights
     = Ok (locals_with 0.8 0.3 0.5 0.0 0.9 0.1 "medium")
  /\ mood (locals_with (F:=Q) 0.1 0.0 0.5 0.0 0.9 0.1 "low")
     <= mood (locals_with (F:=Q) 0.8 0.3 0.5 0.0 0.9 0.1 "medium").
Proof.
  assert (H1 : fuse_locals (F:=Q) text_C None default_weights
               = Ok (locals_with 0.1 0.0 0.5 0.0 0.9 0.1 "low"))
    by (vm_compute; reflexivity).
  assert (H2 : fuse_locals (F:=Q) text_A None default_weights
               = Ok (locals_with 0.8 0.3 0.5 0.0 0.9 0.1 "medium"))
    by (vm_compute; reflexivity).
  split; [exact H1|]. split; [exact H2|].
  apply (fuse_monotone_in_text _ _ _ _ _ _ H1 H2); simpl; lra.
Defined.

(** X6.  [map_face_emotion_score] moves from the neutral 0.5 towards the
    base score of the label in proportion to the confidence: the distance
    of the result from 0.5 is that of the base score times the confidence.
    So a confidence of 0 gives 0.5, a confidence of 1 gives the base score,
    and a label whose base score is 0.5 (neutral, or one the table does not
    know) gives 0.5 at every confidence. *)
Theorem face_score_towards_base (label : string) (c : Q) :
  0 <= c <= 1 ->
  exists x : Q,
    map_face_emotion_score (VStr label) (VNum c) = Ok x
    /\ x - 0.5 == (base_score label - 0.5) * c
    /\ Qmin 0.5 (base_score label) <= x <= Qmax 0.5 (base_score label)
    /\ (c == 0 -> x == 0.5)
    /\ (c == 1 -> x == base_score label)
    /\ (base_score label == 0.5 -> x == 0.5).
Proof.
  intros Hc. unfold map_face_emotion_score, emotion_base.
  pose proof (emotion_table (F:=Q) label) as E. exact_arith. rewrite E.
  eexists. split; [reflexivity|].
  set (b := base_score label).
  split; [ring|].
  split.
  { destruct (Q.min_spec 0.5 b) as [[Hlo ->]|[Hlo ->]];
      destruct (Q.max_spec 0.5 b) as [[Hhi ->]|[Hhi ->]]; split; nra. }
  split; [intros H0; rewrite H0; ring|].
  split; [intros H1; rewrite H1; ring|].
  intros Hb. rewrite Hb. ring.
Qed.

(** X6 for a sad face at confidence 0.9. *)
Lemma face_score_towards_base_witness :
  0 <= 0.9 <= 1
  /\ exists x : Q,
       map_face_emotion_score (VStr "sad") (VNum 0.9) = Ok x
       /\ x - 0.5 == (base_score "sad" - 0.5) * 0.9.
Proof.
  assert (Hc : 0 <= 0.9 <= 1) by lra.
  split; [exact Hc|].
  destruct (face_score_towards_base "sad" 0.9 Hc) as (x & Hx & Hd & _).
  exists x. split; [exact Hx | exact Hd].
Defined.





End FusionProperties.
